(** * DreamJournal: the two browser verification scripts

    A shallow embedding of [jules-scratch/verification/verify_flash.py] and
    [jules-scratch/verification/verify_spacing.py].

    Both scripts are straight-line sequences of Playwright calls.  They are
    embedded as programs of a state-and-exception monad over a [world] that
    holds what the scripts act upon: the browser process, its contexts (each
    with its own init scripts and its own localStorage), the pages, the
    runner's standard output and the files written.  Everything the scripts
    do not decide themselves is read from an [environment]: which call
    raises, what the loaded application renders, what it writes to its
    console. *)

From Stdlib Require Import String Ascii List ZArith Lia Bool.
From stdpp Require Import base option list gmap strings.

Local Open Scope string_scope.

(** ** Python values the scripts handle *)

(** The double quote character. *)
Definition dq : string := String (ascii_of_nat 34) EmptyString.

(** Exceptions raised by the calls; all of them are subclasses of Python's
    [Exception]. *)
Inductive exn : Type :=
| AssertionError (msg : string)   (* a failed [expect(...)] *)
| PlaywrightError (msg : string). (* [playwright.sync_api.Error] and [TimeoutError] *)

(** [str(e)], as used by the f-string of verify_spacing.py line 48. *)
Definition str_exn (e : exn) : string :=
  match e with
  | AssertionError m => m
  | PlaywrightError m => m
  end.

(** Locators, as the scripts build them. *)
Inductive locator : Type :=
| Css (selector : string) (has_text : option string)
    (* [page.locator(selector, has_text=...)] *)
| Role (role name : string)
    (* [page.get_by_role(role, name=...)] *)
| Inside (parent child : locator).
    (* [parent.locator(...)], [parent.get_by_role(...)] *)

Global Instance exn_eq_dec : EqDecision exn.
Proof. solve_decision. Defined.

Global Instance locator_eq_dec : EqDecision locator.
Proof. solve_decision. Defined.

(** ** The environment *)

(** What a locator resolves to at one moment: how many elements it matches,
    and whether the element is visible when there is exactly one. *)
Record observation : Type := Observation {
  matched : nat;
  shown : bool
}.

(** Everything outside the scripts.  Calls to the browser are numbered in
    the order in which they are issued.
    - [cwd]: the invocation directory;
    - [fault k]: the [k]-th call raises a Playwright error with this message
      (a crashed browser, a navigation failure, an action timeout);
    - [dom storage k loc t]: what [loc] resolves to, [t] milliseconds after
      the start of the [k]-th call, in a document whose own scripts started
      with localStorage contents [storage];
    - [console k]: the console messages the addressed page emits while the
      [k]-th call is in flight. *)
Record environment : Type := Environment {
  cwd : string;
  fault : nat -> option string;
  dom : gmap string string -> nat -> locator -> N -> observation;
  console : nat -> list string
}.

(** ** The world the scripts act upon *)

Inductive browser_state : Type := NotLaunched | Running | Terminated.

Global Instance browser_state_eq_dec : EqDecision browser_state.
Proof. solve_decision. Defined.

(** A browser context: the init scripts registered on it, its own
    localStorage for the [file://] origin, whether it is open, and whether
    it was made by [browser.new_page()] for a single page. *)
Record context : Type := Context {
  ctx_init : list string;
  ctx_storage : gmap string string;
  ctx_open : bool;
  ctx_single : bool
}.

(** A page: the context it lives in, the localStorage contents with which
    the scripts of its current document started ([None] before the first
    navigation), its console listeners and whether it is open. *)
Record page : Type := Page {
  pg_ctx : nat;
  pg_document : option (gmap string string);
  pg_listeners : list (string -> string);
  pg_open : bool
}.

(** The calls a script issues to Playwright.  Contexts and pages are named
    by their index of creation. *)
Inductive call : Type :=
| Start                                               (* entering [with ..._playwright()] *)
| Stop                                                (* leaving it *)
| Launch (headless : bool)                            (* [p.chromium.launch(...)] *)
| NewPage                                             (* [browser.new_page()] *)
| NewContext                                          (* [browser.new_context()] *)
| AddInitScript (c : nat) (script : string)           (* [context.add_init_script(script)] *)
| ContextNewPage (c : nat)                            (* [context.new_page()] *)
| Goto (p : nat) (url : string)                       (* [page.goto(url)] *)
| Fill (p : nat) (loc : locator) (text : string)      (* [locator.fill(text)] *)
| Click (p : nat) (loc : locator)                     (* [locator.click()] *)
| DispatchEvent (p : nat) (loc : locator) (type : string) (* [locator.dispatch_event(type)] *)
| ExpectVisible (p : nat) (loc : locator) (timeout : N)    (* [expect(loc).to_be_visible(timeout=...)] *)
| ExpectNotVisible (p : nat) (loc : locator) (timeout : N) (* [expect(loc).not_to_be_visible(timeout=...)] *)
| PageScreenshot (p : nat) (path : string)            (* [page.screenshot(path=...)] *)
| LocatorScreenshot (p : nat) (loc : locator) (path : string) (* [locator.screenshot(path=...)] *)
| PageClose (p : nat)                                 (* [page.close()] *)
| BrowserClose.                                       (* [browser.close()] *)

Global Instance call_eq_dec : EqDecision call.
Proof. solve_decision. Defined.

(** One entry of the run's log: the call and the exception it raised, if
    any. *)
Record event : Type := Event {
  ev_call : call;
  ev_raised : option exn
}.

Global Instance event_eq_dec : EqDecision event.
Proof. solve_decision. Defined.

Record world : Type := World {
  w_calls : nat;                       (* number of calls issued so far *)
  w_browser : browser_state;
  w_contexts : list context;
  w_pages : list page;
  w_emitted : list (nat * string);     (* console messages emitted, with their page *)
  w_stdout : list string;              (* lines printed by the runner *)
  w_files : list string;               (* screenshot files written, oldest first *)
  w_log : list event                   (* calls issued, oldest first *)
}.

Definition initial_world : world :=
  {| w_calls := 0; w_browser := NotLaunched; w_contexts := []; w_pages := [];
     w_emitted := []; w_stdout := []; w_files := []; w_log := [] |}.

(** ** The runner's monad: state and Python exceptions *)

Inductive result (A : Type) : Type :=
| Ok (a : A)
| Raise (e : exn).
Arguments Ok {A} a.
Arguments Raise {A} e.

Definition M (A : Type) : Type := world -> result A * world.

Definition ret {A : Type} (a : A) : M A := fun w => (Ok a, w).

Definition raise {A : Type} (e : exn) : M A := fun w => (Raise e, w).

Definition bind {A B : Type} (m : M A) (f : A -> M B) : M B :=
  fun w =>
    match m w with
    | (Ok a, w') => f a w'
    | (Raise e, w') => (Raise e, w')
    end.

Declare Scope run_scope.
Delimit Scope run_scope with run.
Notation "x <- m ;; k" := (bind m (fun x => k))
  (at level 100, m at next level, right associativity) : run_scope.
Notation "m ;; k" := (bind m (fun _ => k))
  (at level 100, right associativity) : run_scope.
Local Open Scope run_scope.

(** [try: body / except Exception as e: handler e]. *)
Definition try_except {A : Type} (body : M A) (handler : exn -> M A) : M A :=
  fun w =>
    match body w with
    | (Ok a, w') => (Ok a, w')
    | (Raise e, w') => handler e w'
    end.

(** [try: body / finally: final].  The final block runs on both paths; an
    exception of its own replaces the outcome of the body. *)
Definition try_finally {A : Type} (body : M A) (final : M unit) : M A :=
  fun w =>
    match body w with
    | (r, w') =>
        match final w' with
        | (Ok _, w'') => (r, w'')
        | (Raise e, w'') => (Raise e, w'')
        end
    end.

(** [with manager as x: body]: when entering raises, neither the body nor
    the exit runs; otherwise the exit runs on both paths. *)
Definition with_ {A B : Type} (enter : M A) (leave : M unit) (body : A -> M B) : M B :=
  x <- enter ;; try_finally (body x) leave.

(** [print(line)]. *)
Definition print (line : string) : M unit :=
  fun w =>
    (Ok tt,
     {| w_calls := w_calls w; w_browser := w_browser w;
        w_contexts := w_contexts w; w_pages := w_pages w;
        w_emitted := w_emitted w; w_stdout := w_stdout w ++ [line];
        w_files := w_files w; w_log := w_log w |}).

(** The status with which the interpreter exits: zero when the module body
    completes, one when an exception reaches the top level. *)
Definition exit_status {A : Type} (r : result A) : Z :=
  match r with
  | Ok _ => 0%Z
  | Raise _ => 1%Z
  end.

(** ** Playwright's assertions: retry until the deadline *)

Inductive verdict : Type := Pass | Retry | Strict.

(** [to_be_visible] wants the locator to resolve to one visible element;
    a locator that resolves to several elements is a strict mode violation. *)
Definition judge_visible (o : observation) : verdict :=
  if (1 <? matched o)%nat then Strict
  else if (matched o =? 1)%nat && shown o then Pass
  else Retry.

(** [not_to_be_visible] is satisfied by no element and by a hidden one. *)
Definition judge_not_visible (o : observation) : verdict :=
  if (1 <? matched o)%nat then Strict
  else if (matched o =? 1)%nat && shown o then Retry
  else Pass.

Inductive polled : Type :=
| Passed (at_ms : N)
| Violation (at_ms : N)
| TimedOut.

(** The assertion looks at the page at millisecond [t], and again until
    [left] more milliseconds have gone by. *)
Fixpoint poll (judge : observation -> verdict) (view : N -> observation)
    (t : N) (left : nat) : polled :=
  match judge (view t) with
  | Pass => Passed t
  | Strict => Violation t
  | Retry =>
      match left with
      | 0 => TimedOut
      | S n => poll judge view (N.succ t) n
      end
  end.

(** The assertion as a whole: from the start of the call to its deadline. *)
Definition await (judge : observation -> verdict) (view : N -> observation)
    (timeout : N) : polled :=
  poll judge view 0%N (N.to_nat timeout).

(** The timeout of [expect] when none is given, in milliseconds. *)
Definition default_expect_timeout : N := 5000.

(** ** JavaScript of the init script *)

(** [strip p s]: [s] without its prefix [p]. *)
Fixpoint strip (p s : string) : option string :=
  match p with
  | EmptyString => Some s
  | String a p' =>
      match s with
      | EmptyString => None
      | String b s' => if Ascii.eqb a b then strip p' s' else None
      end
  end.

(** The body of a single-quoted JavaScript string literal, up to its
    closing quote, and what follows it.  A backslash keeps the next
    character. *)
Fixpoint js_literal (s : string) : option (string * string) :=
  match s with
  | EmptyString => None
  | String a s' =>
      if Ascii.eqb a "'"%char then Some (EmptyString, s')
      else if Ascii.eqb a "\"%char then
        match s' with
        | EmptyString => None
        | String b s'' =>
            match js_literal s'' with
            | Some (body, rest) => Some (String b body, rest)
            | None => None
            end
        end
      else
        match js_literal s' with
        | Some (body, rest) => Some (String a body, rest)
        | None => None
        end
  end.

(** The statement [localStorage.setItem('key', 'value');] as a key and a
    value. *)
Definition js_set_item (script : string) : option (string * string) :=
  r1 ← strip "localStorage.setItem('" script;
  '(key, r2) ← js_literal r1;
  r3 ← strip ", '" r2;
  '(value, r4) ← js_literal r3;
  if String.eqb r4 ");" then Some (key, value) else None.

(** What evaluating an init script does to localStorage.  Only the
    [setItem] statement is interpreted; any other script leaves the storage
    as it is. *)
Definition eval_init_script (storage : gmap string string) (script : string)
    : gmap string string :=
  match js_set_item script with
  | Some (key, value) => <[key := value]> storage
  | None => storage
  end.

(** ** Updating the world *)

Definition set_browser (b : browser_state) (w : world) : world :=
  {| w_calls := w_calls w; w_browser := b;
     w_contexts := w_contexts w; w_pages := w_pages w;
     w_emitted := w_emitted w; w_stdout := w_stdout w;
     w_files := w_files w; w_log := w_log w |}.

Definition set_contexts (cs : list context) (w : world) : world :=
  {| w_calls := w_calls w; w_browser := w_browser w;
     w_contexts := cs; w_pages := w_pages w;
     w_emitted := w_emitted w; w_stdout := w_stdout w;
     w_files := w_files w; w_log := w_log w |}.

Definition set_pages (ps : list page) (w : world) : world :=
  {| w_calls := w_calls w; w_browser := w_browser w;
     w_contexts := w_contexts w; w_pages := ps;
     w_emitted := w_emitted w; w_stdout := w_stdout w;
     w_files := w_files w; w_log := w_log w |}.

Definition write_file (path : string) (w : world) : world :=
  {| w_calls := w_calls w; w_browser := w_browser w;
     w_contexts := w_contexts w; w_pages := w_pages w;
     w_emitted := w_emitted w; w_stdout := w_stdout w;
     w_files := w_files w ++ [path]; w_log := w_log w |}.

(** The call is entered in the log and counted. *)
Definition logged (c : call) (e : option exn) (w : world) : world :=
  {| w_calls := S (w_calls w); w_browser := w_browser w;
     w_contexts := w_contexts w; w_pages := w_pages w;
     w_emitted := w_emitted w; w_stdout := w_stdout w;
     w_files := w_files w; w_log := w_log w ++ [Event c e] |}.

Definition close_context (cx : context) : context :=
  {| ctx_init := ctx_init cx; ctx_storage := ctx_storage cx;
     ctx_open := false; ctx_single := ctx_single cx |}.

Definition close_page (pg : page) : page :=
  {| pg_ctx := pg_ctx pg; pg_document := pg_document pg;
     pg_listeners := pg_listeners pg; pg_open := false |}.

(** The browser process ends, and with it every context and page. *)
Definition terminate (w : world) : world :=
  set_browser
    (match w_browser w with NotLaunched => NotLaunched | _ => Terminated end)
    (set_contexts (close_context <$> w_contexts w)
       (set_pages (close_page <$> w_pages w) w)).

(** The page a call addresses. *)
Definition addressed (c : call) : option nat :=
  match c with
  | Goto p _ | Fill p _ _ | Click p _ | DispatchEvent p _ _
  | ExpectVisible p _ _ | ExpectNotVisible p _ _
  | PageScreenshot p _ | LocatorScreenshot p _ _ | PageClose p => Some p
  | _ => None
  end.

(** Page [p] writes [msgs] to its console: every listener registered on the
    page is called with every message, and what a listener prints goes to
    the runner's standard output. *)
Definition deliver (p : nat) (msgs : list string) (w : world) : world :=
  match w_pages w !! p with
  | Some pg =>
      if pg_open pg then
        {| w_calls := w_calls w; w_browser := w_browser w;
           w_contexts := w_contexts w; w_pages := w_pages w;
           w_emitted := w_emitted w ++ (pair p <$> msgs);
           w_stdout := w_stdout w
             ++ flat_map (fun m => (fun h => h m) <$> pg_listeners pg) msgs;
           w_files := w_files w; w_log := w_log w |}
      else w
  | None => w
  end.

Definition raised {A : Type} (r : result A) : option exn :=
  match r with
  | Ok _ => None
  | Raise e => Some e
  end.

Definition target_closed : exn :=
  PlaywrightError "Target page, context or browser has been closed".

(** A locator bound to the page it was made from. *)
Record handle : Type := Locator {
  loc_page : nat;
  loc_query : locator
}.

(** ** The Playwright calls *)

Section Playwright.

Variable env : environment.

(** Call number [k] is issued: the addressed page may write to its
    console, the environment may make the call raise, otherwise the call
    has its effect. *)
Definition issue {A : Type} (c : call) (effect : M A) : M A :=
  fun w =>
    let k := w_calls w in
    let w1 :=
      match addressed c with
      | Some p => deliver p (console env k) w
      | None => w
      end in
    match fault env k with
    | Some m =>
        (Raise (PlaywrightError m), logged c (Some (PlaywrightError m)) w1)
    | None =>
        match effect w1 with
        | (r, w2) => (r, logged c (raised r) w2)
        end
    end.

(** [sync_playwright().__enter__()] and [async_playwright().__aenter__()]:
    the driver starts. *)
Definition start : M unit := issue Start (ret tt).

(** The manager's exit stops the driver, which ends the browser it
    launched.  It is not a call to the browser and does not raise. *)
Definition stop : M unit :=
  fun w => (Ok tt, logged Stop None (terminate w)).

(** [p.chromium.launch(headless=...)] *)
Definition launch (headless : bool) : M unit :=
  issue (Launch headless) (fun w => (Ok tt, set_browser Running w)).

(** [browser.new_context()]: a context of its own, with no init script
    and an empty storage. *)
Definition new_context : M nat :=
  issue NewContext (fun w =>
    match w_browser w with
    | Running =>
        (Ok (length (w_contexts w)),
         set_contexts (w_contexts w ++ [Context [] ∅ true false]) w)
    | _ => (Raise target_closed, w)
    end).

(** [context.new_page()] *)
Definition context_new_page (c : nat) : M nat :=
  issue (ContextNewPage c) (fun w =>
    match w_contexts w !! c with
    | Some cx =>
        if ctx_open cx then
          (Ok (length (w_pages w)),
           set_pages (w_pages w ++ [Page c None [] true]) w)
        else (Raise target_closed, w)
    | None => (Raise target_closed, w)
    end).

(** [browser.new_page()]: a new page in a new context. *)
Definition new_page : M nat :=
  issue NewPage (fun w =>
    match w_browser w with
    | Running =>
        (Ok (length (w_pages w)),
         set_pages (w_pages w ++ [Page (length (w_contexts w)) None [] true])
           (set_contexts (w_contexts w ++ [Context [] ∅ true true]) w))
    | _ => (Raise target_closed, w)
    end).

(** [context.add_init_script(script)] *)
Definition add_init_script (c : nat) (script : string) : M unit :=
  issue (AddInitScript c script) (fun w =>
    match w_contexts w !! c with
    | Some cx =>
        if ctx_open cx then
          (Ok tt,
           set_contexts
             (<[c := Context (ctx_init cx ++ [script]) (ctx_storage cx)
                       true (ctx_single cx)]>
                (w_contexts w)) w)
        else (Raise target_closed, w)
    | None => (Raise target_closed, w)
    end).

(** [page.on("console", handler)]: kept by the client, no call is made. *)
Definition on_console (p : nat) (handler : string -> string) : M unit :=
  fun w =>
    match w_pages w !! p with
    | Some pg =>
        (Ok tt,
         set_pages
           (<[p := Page (pg_ctx pg) (pg_document pg)
                     (pg_listeners pg ++ [handler]) (pg_open pg)]>
              (w_pages w)) w)
    | None => (Ok tt, w)
    end.

(** The open page [p] and its context. *)
Definition open_page (p : nat) (w : world) : option (page * context) :=
  pg ← w_pages w !! p;
  cx ← w_contexts w !! pg_ctx pg;
  if pg_open pg && ctx_open cx then Some (pg, cx) else None.

(** [page.goto(url)]: the init scripts of the page's context are evaluated
    in the new document, in the order of their registration, before the
    document's own scripts; the document's scripts then start with the
    storage the init scripts left. *)
Definition goto (p : nat) (url : string) : M unit :=
  issue (Goto p url) (fun w =>
    match open_page p w with
    | Some (pg, cx) =>
        let storage := foldl eval_init_script (ctx_storage cx) (ctx_init cx) in
        (Ok tt,
         set_pages
           (<[p := Page (pg_ctx pg) (Some storage) (pg_listeners pg) true]>
              (w_pages w))
           (set_contexts
              (<[pg_ctx pg := Context (ctx_init cx) storage true (ctx_single cx)]>
                 (w_contexts w)) w))
    | None => (Raise target_closed, w)
    end).

(** An action on an open page.  What the application makes of it shows in
    [dom]. *)
Definition act (c : call) (p : nat) : M unit :=
  issue c (fun w =>
    match open_page p w with
    | Some _ => (Ok tt, w)
    | None => (Raise target_closed, w)
    end).

(** [page.locator(selector, has_text=...)] *)
Definition page_locator (p : nat) (selector : string) (has_text : option string)
    : handle :=
  Locator p (Css selector has_text).

(** [page.get_by_role(role, name=...)] *)
Definition page_get_by_role (p : nat) (role name : string) : handle :=
  Locator p (Role role name).

(** [locator.locator(selector)] *)
Definition locator_locator (l : handle) (selector : string) : handle :=
  Locator (loc_page l) (Inside (loc_query l) (Css selector None)).

(** [locator.get_by_role(role, name=...)] *)
Definition locator_get_by_role (l : handle) (role name : string) : handle :=
  Locator (loc_page l) (Inside (loc_query l) (Role role name)).

(** [locator.fill(text)] *)
Definition fill (l : handle) (text : string) : M unit :=
  act (Fill (loc_page l) (loc_query l) text) (loc_page l).

(** [locator.click()] *)
Definition click (l : handle) : M unit :=
  act (Click (loc_page l) (loc_query l)) (loc_page l).

(** [locator.dispatch_event(type)] *)
Definition dispatch_event (l : handle) (type : string) : M unit :=
  act (DispatchEvent (loc_page l) (loc_query l) type) (loc_page l).

(** What the locator resolves to during call [k], as a function of the
    milliseconds since the call began.  A page that has not navigated
    has no element. *)
Definition view (w : world) (k : nat) (l : handle) : N -> observation :=
  match w_pages w !! loc_page l with
  | Some pg =>
      match pg_document pg with
      | Some storage => dom env storage k (loc_query l)
      | None => fun _ => Observation 0 false
      end
  | None => fun _ => Observation 0 false
  end.

Definition timeout_ms (timeout : option N) : N :=
  default default_expect_timeout timeout.

Definition expecting (c : call) (judge : observation -> verdict)
    (l : handle) (timeout : N) (failure : string) : M unit :=
  issue c (fun w =>
    match open_page (loc_page l) w with
    | Some _ =>
        match await judge (view w (w_calls w) l) timeout with
        | Passed _ => (Ok tt, w)
        | Violation _ => (Raise (PlaywrightError "strict mode violation"), w)
        | TimedOut => (Raise (AssertionError failure), w)
        end
    | None => (Raise target_closed, w)
    end).

(** [expect(locator).to_be_visible(timeout=...)] *)
Definition expect_to_be_visible (l : handle) (timeout : option N) : M unit :=
  expecting (ExpectVisible (loc_page l) (loc_query l) (timeout_ms timeout))
    judge_visible l (timeout_ms timeout) "Locator expected to be visible".

(** [expect(locator).not_to_be_visible(timeout=...)] *)
Definition expect_not_to_be_visible (l : handle) (timeout : option N) : M unit :=
  expecting (ExpectNotVisible (loc_page l) (loc_query l) (timeout_ms timeout))
    judge_not_visible l (timeout_ms timeout) "Locator expected not to be visible".

(** [page.screenshot(path=...)] *)
Definition page_screenshot (p : nat) (path : string) : M unit :=
  issue (PageScreenshot p path) (fun w =>
    match open_page p w with
    | Some _ => (Ok tt, write_file path w)
    | None => (Raise target_closed, w)
    end).

(** [locator.screenshot(path=...)] *)
Definition locator_screenshot (l : handle) (path : string) : M unit :=
  issue (LocatorScreenshot (loc_page l) (loc_query l) path) (fun w =>
    match open_page (loc_page l) w with
    | Some _ => (Ok tt, write_file path w)
    | None => (Raise target_closed, w)
    end).

(** [page.close()]; a context made by [browser.new_page()] closes with
    its page. *)
Definition page_close (p : nat) : M unit :=
  issue (PageClose p) (fun w =>
    match w_pages w !! p with
    | Some pg =>
        (Ok tt,
         set_pages (<[p := close_page pg]> (w_pages w))
           (set_contexts
              (alter (fun cx => if ctx_single cx then close_context cx else cx)
                 (pg_ctx pg) (w_contexts w)) w))
    | None => (Ok tt, w)
    end).

(** [browser.close()] *)
Definition browser_close : M unit :=
  issue BrowserClose (fun w => (Ok tt, terminate w)).

(** [os.path.abspath(name)] for a plain file name. *)
Definition abspath (name : string) : string :=
  match strip "/" (String.rev (cwd env)) with
  | Some _ => cwd env +:+ name
  | None => cwd env +:+ "/" +:+ name
  end.

End Playwright.

(** ** verify_flash.py *)

Module VerifyFlash.

Definition unlocked_view : string := "jules-scratch/verification/unlocked_view.png".
Definition locked_view : string := "jules-scratch/verification/locked_view.png".

(** The init script of line 29, after Python has read the escapes of its
    string literal. *)
Definition seed_script : string :=
  "localStorage.setItem('dreamJournalPinHash', '" +:+ dq +:+ "somehash" +:+ dq +:+ "');".

Section Script.

Variable env : environment.

(** [async def main()], lines 5 to 44.  Every [await] suspends the one
    flow of control until the call is over, so the calls run in the
    order of the text. *)
Definition main : M unit :=
  with_ (start env) (stop) (fun _ =>
    launch env true ;;
    let file_path := abspath env "index.html" in
    let url := "file://" +:+ file_path in
    (* Test Case 1: No PIN set *)
    page <- new_page env ;;
    goto env page url ;;
    let journal_tab := page_locator page "#journalTab" None in
    expect_to_be_visible env journal_tab (Some 5000%N) ;;
    page_screenshot env page unlocked_view ;;
    page_close env page ;;
    (* Test Case 2: PIN is set *)
    context <- new_context env ;;
    add_init_script env context seed_script ;;
    page <- context_new_page env context ;;
    goto env page url ;;
    let lock_tab := page_locator page "#lockTab" None in
    expect_to_be_visible env lock_tab (Some 5000%N) ;;
    let journal_tab := page_locator page "#journalTab" None in
    expect_not_to_be_visible env journal_tab None ;;
    page_screenshot env page locked_view ;;
    browser_close env).

(** [asyncio.run(main())] under the [__main__] guard: the outcome of
    the script and the world it leaves. *)
Definition run : result unit * world := main initial_world.

End Script.

End VerifyFlash.

(** ** verify_spacing.py *)

Module VerifySpacing.

Definition verification : string := "jules-scratch/verification/verification.png".

(** The listener of line 10. *)
Definition console_listener (text : string) : string :=
  "Browser Console: " +:+ text.

Section Script.

Variable env : environment.

(** [def verify_spacing(page)], lines 4 to 38. *)
Definition verify_spacing (page : nat) : M unit :=
  on_console page console_listener ;;
  let file_path := abspath env "index.html" in
  goto env page ("file://" +:+ file_path) ;;
  (* 1. Arrange *)
  let dream_title := "A Test Dream About Spacing" in
  let dream_content := "This is the content of the test dream." in
  fill env (page_locator page "#dreamTitle" None) dream_title ;;
  fill env (page_locator page "#dreamContent" None) dream_content ;;
  (* 2. Act *)
  click env (page_get_by_role page "button" "Save Dream") ;;
  (* 3. Assert *)
  let entry_element := page_locator page ".entry" (Some dream_title) in
  expect_to_be_visible env entry_element None ;;
  (* 4. Act *)
  let edit_button := locator_get_by_role entry_element "button" "Edit" in
  dispatch_event env edit_button "click" ;;
  (* 5. Assert and screenshot *)
  expect_to_be_visible env (locator_locator entry_element "textarea") (Some 10000%N) ;;
  locator_screenshot env entry_element verification.

(** The module body, lines 41 to 50. *)
Definition script : M unit :=
  with_ (start env) (stop) (fun _ =>
    launch env true ;;
    page <- new_page env ;;
    try_finally
      (try_except
         (verify_spacing page ;;
          print "Verification script ran successfully.")
         (fun e => print ("Verification script failed: " +:+ str_exn e)))
      (browser_close env)).

Definition run : result unit * world := script initial_world.

End Script.

End VerifySpacing.


(** ** What the claims speak of *)

(** One element, and it is visible. *)
Definition visible (o : observation) : Prop :=
  matched o = 1 ∧ shown o = true.

(** The two calls that make a visibility assertion. *)
Definition is_assertion (c : call) : bool :=
  match c with
  | ExpectVisible _ _ _ | ExpectNotVisible _ _ _ => true
  | _ => false
  end.

(** The calls that release the browser session; they belong to no
    scenario. *)
Definition teardown (c : call) : bool :=
  match c with
  | BrowserClose | Stop => true
  | _ => false
  end.

(** The call completed. *)
Definition passed (c : call) (w : world) : Prop :=
  Event c None ∈ w_log w.

(** The call was made, whatever came of it. *)
Definition issued (c : call) (w : world) : Prop :=
  ∃ e, Event c e ∈ w_log w.

(** The call raised. *)
Definition failed (c : call) (w : world) : Prop :=
  ∃ e, Event c (Some e) ∈ w_log w.

(** Call [a] completed, and later call [s] completed. *)
Definition passed_before (a s : call) (w : world) : Prop :=
  ∃ i j, i < j ∧ w_log w !! i = Some (Event a None)
               ∧ w_log w !! j = Some (Event s None).


(** After a visibility assertion that raised, the log holds nothing but
    teardown. *)
Fixpoint fail_fast (log : list event) : bool :=
  match log with
  | [] => true
  | ev :: rest =>
      (match ev_raised ev with
       | Some _ =>
           if is_assertion (ev_call ev)
           then forallb (fun ev' => teardown (ev_call ev')) rest
           else true
       | None => true
       end) && fail_fast rest
  end.

(** The calls of verify_spacing.py that its [try] statement does not
    guard: entering the manager, the launch and [browser.new_page()] before
    it, and [browser.close()] in its [finally] block. *)
Definition unguarded (c : call) : bool :=
  match c with
  | Start | Launch _ | NewPage | BrowserClose => true
  | _ => false
  end.

(** The key and the value of the marker of a configured PIN. *)
Definition pin_key : string := "dreamJournalPinHash".
Definition pin_value : string := dq +:+ "somehash" +:+ dq.

(** The selectors and locators of the scripts. *)
Definition journal_tab : locator := Css "#journalTab" None.
Definition lock_tab : locator := Css "#lockTab" None.
Definition dream_title : string := "A Test Dream About Spacing".
Definition entry_element : locator := Css ".entry" (Some dream_title).
Definition edit_button : locator := Inside entry_element (Role "button" "Edit").
Definition entry_textarea : locator := Inside entry_element (Css "textarea" None).

(** The steps of [verify_spacing] that come after the entry assertion. *)
Definition steps_after_entry : list call :=
  [ DispatchEvent 0 edit_button "click";
    ExpectVisible 0 entry_textarea 10000;
    LocatorScreenshot 0 entry_element "jules-scratch/verification/verification.png" ].

(** The address both scripts navigate to. *)
Definition target_url (env : environment) : string :=
  "file://" +:+ abspath env "index.html".

(** ** Environments to run the scripts in *)

(** An application that behaves: without the marker the journal tab shows
    after three milliseconds and the lock tab never; with the marker the
    lock tab shows and the journal tab does not; everything else is there
    and visible.  No call raises; the page logs one line while it loads. *)
Definition well_behaved_dom (storage : gmap string string) (k : nat)
    (loc : locator) (t : N) : observation :=
  if decide (loc = journal_tab) then
    match storage !! pin_key with
    | Some _ => Observation 1 false
    | None => Observation 1 (3 <=? t)%N
    end
  else if decide (loc = lock_tab) then
    match storage !! pin_key with
    | Some _ => Observation 1 true
    | None => Observation 1 false
    end
  else Observation 1 true.

Definition well_behaved : environment :=
  {| cwd := "/home/user/DreamJournal";
     fault := fun _ => None;
     dom := well_behaved_dom;
     console := fun k => if (k =? 3)%nat then ["Dream Journal ready"] else [] |}.

(** The same application, where the journal tab never shows. *)
Definition stuck : environment :=
  {| cwd := "/home/user/DreamJournal";
     fault := fun _ => None;
     dom := fun _ _ _ _ => Observation 1 false;
     console := fun _ => [] |}.

(** An application that shows the lock tab and the journal tab together
    as long as no PIN is configured. *)
Definition flashing_dom (storage : gmap string string) (k : nat)
    (loc : locator) (t : N) : observation :=
  if decide (loc = journal_tab) then
    match storage !! pin_key with
    | Some _ => Observation 1 false
    | None => Observation 1 true
    end
  else Observation 1 true.

Definition flashing : environment :=
  {| cwd := "/home/user/DreamJournal";
     fault := fun _ => None;
     dom := flashing_dom;
     console := fun _ => [] |}.

(** The HTML file is missing: the navigation, call number 3 of either
    script, raises. *)
Definition missing_file : environment :=
  {| cwd := "/tmp";
     fault := fun k =>
       if (k =? 3)%nat then Some "net::ERR_FILE_NOT_FOUND" else None;
     dom := well_behaved_dom;
     console := fun _ => [] |}.


(** ** The scripts as sequences of calls *)

(** The calls of [main] in verify_flash.py, lines 6 to 44, in the order of
    the text. *)
Definition flash_plan (env : environment) : list call :=
  [ Start; Launch true;
    NewPage; Goto 0 (target_url env);
    ExpectVisible 0 journal_tab 5000;
    PageScreenshot 0 VerifyFlash.unlocked_view; PageClose 0;
    NewContext; AddInitScript 1 VerifyFlash.seed_script; ContextNewPage 1;
    Goto 1 (target_url env);
    ExpectVisible 1 lock_tab 5000; ExpectNotVisible 1 journal_tab 5000;
    PageScreenshot 1 VerifyFlash.locked_view;
    BrowserClose ].

(** The calls of verify_spacing.py up to the end of [verify_spacing(page)]:
    lines 41 to 43 of the module body, then lines 13 to 38. *)
Definition spacing_plan (env : environment) : list call :=
  [ Start; Launch true; NewPage;
    Goto 0 (target_url env);
    Fill 0 (Css "#dreamTitle" None) "A Test Dream About Spacing";
    Fill 0 (Css "#dreamContent" None) "This is the content of the test dream.";
    Click 0 (Role "button" "Save Dream");
    ExpectVisible 0 entry_element 5000;
    DispatchEvent 0 edit_button "click";
    ExpectVisible 0 entry_textarea 10000;
    LocatorScreenshot 0 entry_element VerifySpacing.verification ].

(** After any call that raised, the log holds nothing but teardown. *)
Fixpoint stops_at_failure (log : list event) : bool :=
  match log with
  | [] => true
  | ev :: rest =>
      (match ev_raised ev with
       | Some _ => forallb (fun ev' => teardown (ev_call ev')) rest
       | None => true
       end) && stops_at_failure rest
  end.

(** The number of calls that raised. *)
Fixpoint failures (log : list event) : nat :=
  match log with
  | [] => 0
  | ev :: rest =>
      match ev_raised ev with
      | Some _ => S (failures rest)
      | None => failures rest
      end
  end.


(** * Properties *)

(** ** The assertions *)

Lemma judge_visible_pass (o : observation) :
  judge_visible o = Pass ↔ visible o.
Proof.
  unfold judge_visible, visible.
  destruct o as [[|[|n]] b]; destruct b; cbn; split; intros H;
    first [discriminate H | reflexivity | tauto
          | destruct H as [H1 H2]; congruence].
Qed.

Lemma judge_not_visible_pass (o : observation) :
  judge_not_visible o = Pass ↔ ((matched o ≤ 1)%nat ∧ ¬ visible o).
Proof.
  unfold judge_not_visible, visible.
  destruct o as [[|[|n]] b]; destruct b; cbn; split; intros H;
    first [ discriminate H | reflexivity
          | split; [lia | intros [H1 H2]; congruence]
          | destruct H as [H _]; lia
          | destruct H as [_ H]; exfalso; apply H; auto ].
Qed.

(** A poll that passes does so at a moment no later than the deadline, at
    which the judge is satisfied, after moments at which it asked to
    retry. *)
Lemma poll_passed judge view (left : nat) :
  ∀ (t t' : N), poll judge view t left = Passed t' →
    (t ≤ t' ≤ t + N.of_nat left)%N ∧ judge (view t') = Pass ∧
    ∀ u, (t ≤ u < t')%N → judge (view u) = Retry.
Proof.
  induction left as [|n IH]; intros t t' H; cbn in H.
  - destruct (judge (view t)) eqn:J; inversion H; subst.
    repeat split; try lia; auto.
  - destruct (judge (view t)) eqn:J.
    + inversion H; subst. repeat split; try lia; auto.
    + apply IH in H as (Hb & Hj & Hr).
      repeat split; try lia; auto.
      intros u Hu. destruct (decide (u = t)) as [->|Hne]; [exact J|].
      apply Hr. lia.
    + discriminate.
Qed.

Lemma await_passed judge view (timeout t : N) :
  await judge view timeout = Passed t →
  (t ≤ timeout)%N ∧ judge (view t) = Pass.
Proof.
  unfold await. intros H. apply poll_passed in H as (Hb & Hj & _).
  split; [lia | exact Hj].
Qed.

(** As soon as the judge is satisfied within the deadline, after retries
    only, the poll passes: an assertion does not fail for want of
    looking. *)
Lemma poll_complete judge view (left : nat) :
  ∀ (t t' : N), (t ≤ t' ≤ t + N.of_nat left)%N →
    judge (view t') = Pass →
    (∀ u, (t ≤ u < t')%N → judge (view u) = Retry) →
    poll judge view t left = Passed t'.
Proof.
  induction left as [|n IH]; intros t t' Hb Hj Hr; cbn.
  - assert (t' = t) as -> by lia. rewrite Hj. reflexivity.
  - destruct (decide (t' = t)) as [->|Hne].
    + rewrite Hj. reflexivity.
    + rewrite (Hr t) by lia. apply IH; [lia | exact Hj |].
      intros u Hu. apply Hr. lia.
Qed.

(** ** The init script *)

Lemma seed_script_sets :
  js_set_item VerifyFlash.seed_script = Some (pin_key, pin_value).
Proof. reflexivity. Qed.

Lemma eval_seed_script (storage : gmap string string) :
  eval_init_script storage VerifyFlash.seed_script
  = <[pin_key := pin_value]> storage.
Proof. unfold eval_init_script. rewrite seed_script_sets. reflexivity. Qed.

(** ** Fail-fast logs *)

Lemma fail_fast_spec (log : list event) :
  fail_fast log = true →
  ∀ i j c e ev,
    log !! i = Some (Event c (Some e)) → is_assertion c = true →
    i < j → log !! j = Some ev → teardown (ev_call ev) = true.
Proof.
  induction log as [|x rest IH]; intros H i j c e ev Hi Hc Hij Hj.
  - rewrite lookup_nil in Hi. discriminate.
  - cbn in H. apply andb_prop in H as [Hx Hrest].
    destruct i as [|i].
    + cbn in Hi. inversion Hi; subst x. cbn in Hx. rewrite Hc in Hx.
      destruct j as [|j]; [lia|]. cbn in Hj.
      rewrite forallb_forall in Hx. apply Hx.
      apply list_elem_of_In. eapply list_elem_of_lookup_2. exact Hj.
    + destruct j as [|j]; [lia|]. cbn in Hi, Hj.
      apply (IH Hrest i j c e ev Hi Hc); [lia | exact Hj].
Qed.

(** ** Running a script against an unknown environment *)

Arguments eval_init_script : simpl never.
Arguments abspath : simpl never.
Arguments await : simpl never.

Ltac unfold_calls E :=
  unfold with_, try_finally, try_except, bind, ret, raise, print, start, stop,
    launch, new_page, new_context, context_new_page, add_init_script,
    on_console, goto, fill, click, dispatch_event, act, expect_to_be_visible,
    expect_not_to_be_visible, expecting, page_screenshot, locator_screenshot,
    page_close, browser_close, issue in E.

(** The run [E : script initial_world = (r, w)] is followed call by call,
    from call number [k] on: the environment either makes the call raise or
    lets it through, and an assertion passes, is a strict mode violation, or
    times out.  One goal is left for every way the run can end. *)
Ltac explore E k :=
  lazymatch type of E with
  | context [fault ?env k] =>
      destruct (fault env k) eqn:?; cbn in E;
      [ explore E k | explore E k ]
  | context [await ?j (dom ?env ?st k ?l) ?t] =>
      destruct (await j (dom env st k l) t) eqn:?; cbn in E;
      explore E (S k)
  | context [fault ?env (S k)] => explore E (S k)
  | _ => inversion E; subst; clear E; cbn
  end.

Ltac run_flash env r w E :=
  destruct (VerifyFlash.run env) as [r w] eqn:E;
  unfold VerifyFlash.run, VerifyFlash.main in E;
  unfold_calls E; cbn in E.

Ltac run_spacing env r w E :=
  destruct (VerifySpacing.run env) as [r w] eqn:E;
  unfold VerifySpacing.run, VerifySpacing.script, VerifySpacing.verify_spacing in E;
  unfold_calls E; cbn in E.

(** Membership in a list that is written out. *)
Ltac elems :=
  repeat match goal with
  | H : _ ∈ [] |- _ => apply elem_of_nil in H; destruct H
  | H : _ ∈ (_ :: _) |- _ =>
      apply elem_of_cons in H; destruct H as [H|H];
      [ first [discriminate H | inversion H; clear H; subst] | ]
  end.

Ltac is_elem :=
  repeat first [apply list_elem_of_here | apply list_elem_of_further].

(** ** The scripts at work *)

(** With the application that behaves, verify_flash.py completes and writes
    its two screenshots, the unlocked one first. *)
Example flash_completes :
  (VerifyFlash.run well_behaved).1 = Ok tt ∧
  w_files (VerifyFlash.run well_behaved).2
    = [VerifyFlash.unlocked_view; VerifyFlash.locked_view] ∧
  ev_call <$> w_log (VerifyFlash.run well_behaved).2
    = [ Start; Launch true; NewPage;
        Goto 0 "file:///home/user/DreamJournal/index.html";
        ExpectVisible 0 journal_tab 5000;
        PageScreenshot 0 VerifyFlash.unlocked_view; PageClose 0;
        NewContext; AddInitScript 1 VerifyFlash.seed_script; ContextNewPage 1;
        Goto 1 "file:///home/user/DreamJournal/index.html";
        ExpectVisible 1 lock_tab 5000; ExpectNotVisible 1 journal_tab 5000;
        PageScreenshot 1 VerifyFlash.locked_view; BrowserClose; Stop ].
Proof. vm_compute. repeat split. Qed.

(** With the same application, verify_spacing.py completes, prints the
    line the page logged and its own last line, and writes its screenshot. *)
Example spacing_completes :
  (VerifySpacing.run well_behaved).1 = Ok tt ∧
  w_stdout (VerifySpacing.run well_behaved).2
    = [ "Browser Console: Dream Journal ready";
        "Verification script ran successfully." ] ∧
  w_files (VerifySpacing.run well_behaved).2 = [VerifySpacing.verification].
Proof. vm_compute. repeat split. Qed.

(** Without the HTML file, verify_flash.py ends with the exception of the
    navigation and status one; verify_spacing.py prints it and ends with
    status zero. *)
Example runs_without_the_file :
  (VerifyFlash.run missing_file).1
    = Raise (PlaywrightError "net::ERR_FILE_NOT_FOUND") ∧
  exit_status (VerifyFlash.run missing_file).1 = 1%Z ∧
  w_files (VerifyFlash.run missing_file).2 = [] ∧
  exit_status (VerifySpacing.run missing_file).1 = 0%Z ∧
  w_stdout (VerifySpacing.run missing_file).2
    = ["Verification script failed: net::ERR_FILE_NOT_FOUND"].
Proof. vm_compute. repeat split. Qed.

(** Where [browser.close()] itself is called: in verify_spacing.py on every
    path once the page has been opened, in verify_flash.py only when the
    second screenshot has been taken. *)
Lemma browser_close_calls (env : environment) :
  (passed NewPage (VerifySpacing.run env).2 →
     issued BrowserClose (VerifySpacing.run env).2) ∧
  (issued BrowserClose (VerifyFlash.run env).2 →
     VerifyFlash.locked_view ∈ w_files (VerifyFlash.run env).2).
Proof.
  split.
  - run_spacing env r w E. explore E 0.
    all: unfold passed, issued; cbn; intros Hx; elems; eexists; is_elem.
  - run_flash env r w E. explore E 0.
    all: unfold issued; cbn; intros [e Hx]; elems; is_elem.
Qed.

(** ** The browser is released on every path *)

(** C6.  On every exit path of either script, whether it completes or a
    call raises, the browser process is not left running when the script
    ends: once launched it has been terminated, by [browser.close()] or by
    the exit of the Playwright manager that surrounds the whole session. *)
Theorem browser_released_on_every_path (env : environment) :
  let flash := (VerifyFlash.run env).2 in
  let spacing := (VerifySpacing.run env).2 in
  (w_browser flash ≠ Running ∧ w_browser spacing ≠ Running) ∧
  (passed (Launch true) flash → w_browser flash = Terminated) ∧
  (passed (Launch true) spacing → w_browser spacing = Terminated).
Proof.
  cbn zeta.
  assert (Hf : w_browser (VerifyFlash.run env).2 ≠ Running ∧
               (passed (Launch true) (VerifyFlash.run env).2 →
                w_browser (VerifyFlash.run env).2 = Terminated)).
  { run_flash env r w E. explore E 0.
    all: split; [discriminate | unfold passed; cbn; intros H; elems; reflexivity]. }
  assert (Hs : w_browser (VerifySpacing.run env).2 ≠ Running ∧
               (passed (Launch true) (VerifySpacing.run env).2 →
                w_browser (VerifySpacing.run env).2 = Terminated)).
  { run_spacing env r w E. explore E 0.
    all: split; [discriminate | unfold passed; cbn; intros H; elems; reflexivity]. }
  tauto.
Qed.

(** ** Exit status *)



(** ** Screenshots and fail-fast *)

Ltac before i j :=
  exists i, j; cbn; split; [lia | split; reflexivity].

(** The conjuncts of the goal, one goal each. *)
Ltac conjuncts :=
  lazymatch goal with
  | |- _ ∧ _ => split; [ | conjuncts ]
  | _ => idtac
  end.

(** C5.  In each of the three scenarios the screenshot is written only
    after every visibility assertion of the scenario has passed; when an
    assertion of a scenario raises, the screenshot of that scenario is not
    written, and nothing but the release of the browser session follows in
    the run. *)
Theorem screenshot_only_after_assertions (env : environment) :
  let flash := (VerifyFlash.run env).2 in
  let spacing := (VerifySpacing.run env).2 in
  (* written only after the assertions have passed *)
  (VerifyFlash.unlocked_view ∈ w_files flash →
     passed_before (ExpectVisible 0 journal_tab 5000)
       (PageScreenshot 0 VerifyFlash.unlocked_view) flash) ∧
  (VerifyFlash.locked_view ∈ w_files flash →
     passed_before (ExpectVisible 1 lock_tab 5000)
       (PageScreenshot 1 VerifyFlash.locked_view) flash ∧
     passed_before (ExpectNotVisible 1 journal_tab 5000)
       (PageScreenshot 1 VerifyFlash.locked_view) flash) ∧
  (VerifySpacing.verification ∈ w_files spacing →
     passed_before (ExpectVisible 0 entry_element 5000)
       (LocatorScreenshot 0 entry_element VerifySpacing.verification) spacing ∧
     passed_before (ExpectVisible 0 entry_textarea 10000)
       (LocatorScreenshot 0 entry_element VerifySpacing.verification) spacing) ∧
  (* not written when an assertion raises *)
  (failed (ExpectVisible 0 journal_tab 5000) flash →
     VerifyFlash.unlocked_view ∉ w_files flash) ∧
  (failed (ExpectVisible 1 lock_tab 5000) flash
   ∨ failed (ExpectNotVisible 1 journal_tab 5000) flash →
     VerifyFlash.locked_view ∉ w_files flash) ∧
  (failed (ExpectVisible 0 entry_element 5000) spacing
   ∨ failed (ExpectVisible 0 entry_textarea 10000) spacing →
     VerifySpacing.verification ∉ w_files spacing) ∧
  (* no later step after an assertion that raised *)
  (∀ w, w = flash ∨ w = spacing →
     ∀ i j c e ev,
       w_log w !! i = Some (Event c (Some e)) → is_assertion c = true →
       i < j → w_log w !! j = Some ev → teardown (ev_call ev) = true).
Proof.
  cbn zeta.
  assert (Hflash :
    (VerifyFlash.unlocked_view ∈ w_files (VerifyFlash.run env).2 →
       passed_before (ExpectVisible 0 journal_tab 5000)
         (PageScreenshot 0 VerifyFlash.unlocked_view) (VerifyFlash.run env).2) ∧
    (VerifyFlash.locked_view ∈ w_files (VerifyFlash.run env).2 →
       passed_before (ExpectVisible 1 lock_tab 5000)
         (PageScreenshot 1 VerifyFlash.locked_view) (VerifyFlash.run env).2 ∧
       passed_before (ExpectNotVisible 1 journal_tab 5000)
         (PageScreenshot 1 VerifyFlash.locked_view) (VerifyFlash.run env).2) ∧
    (failed (ExpectVisible 0 journal_tab 5000) (VerifyFlash.run env).2 →
       VerifyFlash.unlocked_view ∉ w_files (VerifyFlash.run env).2) ∧
    (failed (ExpectVisible 1 lock_tab 5000) (VerifyFlash.run env).2
     ∨ failed (ExpectNotVisible 1 journal_tab 5000) (VerifyFlash.run env).2 →
       VerifyFlash.locked_view ∉ w_files (VerifyFlash.run env).2) ∧
    fail_fast (w_log (VerifyFlash.run env).2) = true).
  { run_flash env r w E. explore E 0.
    all: unfold failed; cbn; conjuncts;
      [ intros H; elems; before 4 5
      | intros H; elems; split; first [before 11 13 | before 12 13]
      | intros [e H] Hin; elems
      | intros [[e H]|[e H]] Hin; elems
      | reflexivity ]. }
  assert (Hspacing :
    (VerifySpacing.verification ∈ w_files (VerifySpacing.run env).2 →
       passed_before (ExpectVisible 0 entry_element 5000)
         (LocatorScreenshot 0 entry_element VerifySpacing.verification)
         (VerifySpacing.run env).2 ∧
       passed_before (ExpectVisible 0 entry_textarea 10000)
         (LocatorScreenshot 0 entry_element VerifySpacing.verification)
         (VerifySpacing.run env).2) ∧
    (failed (ExpectVisible 0 entry_element 5000) (VerifySpacing.run env).2
     ∨ failed (ExpectVisible 0 entry_textarea 10000) (VerifySpacing.run env).2 →
       VerifySpacing.verification ∉ w_files (VerifySpacing.run env).2) ∧
    fail_fast (w_log (VerifySpacing.run env).2) = true).
  { run_spacing env r w E. explore E 0.
    all: unfold failed; cbn; conjuncts;
      [ intros H; elems; split; first [before 7 10 | before 9 10]
      | intros [[e H]|[e H]] Hin; elems
      | reflexivity ]. }
  destruct Hflash as (F1 & F2 & F3 & F4 & F5).
  destruct Hspacing as (S1 & S2 & S3).
  conjuncts; try assumption.
  intros w [-> | ->]; apply fail_fast_spec; assumption.
Qed.

(** ** The second scenario of verify_flash.py waits for the first *)

(** C10.  When the journal tab assertion of the first scenario raises, the
    second scenario does not run at all: no context is created for it, no
    init script is registered and no storage is seeded, neither of its
    assertions is made, and [locked_view.png] is not written. *)
Theorem second_scenario_not_run (env : environment) :
  let w := (VerifyFlash.run env).2 in
  failed (ExpectVisible 0 journal_tab 5000) w →
  ¬ issued NewContext w ∧
  (∀ c script, ¬ issued (AddInitScript c script) w) ∧
  (∀ cx, cx ∈ w_contexts w → ctx_init cx = [] ∧ ctx_storage cx = ∅) ∧
  (∀ p timeout, ¬ issued (ExpectVisible p lock_tab timeout) w) ∧
  (∀ p loc timeout, ¬ issued (ExpectNotVisible p loc timeout) w) ∧
  VerifyFlash.locked_view ∉ w_files w.
Proof.
  cbn zeta. run_flash env r w E. explore E 0.
  all: unfold failed, issued; cbn; intros [e H]; elems.
  all: conjuncts;
    [ intros [e' H]; elems
    | intros c script [e' H]; elems
    | intros cx H; elems; cbn; split; reflexivity
    | intros p timeout [e' H]; elems
    | intros p loc timeout [e' H]; elems
    | intros H; elems ].
Qed.

(** The theorem at an application whose journal tab never shows. *)
Lemma second_scenario_not_run_witness :
  failed (ExpectVisible 0 journal_tab 5000) (VerifyFlash.run stuck).2 ∧
  ¬ issued NewContext (VerifyFlash.run stuck).2 ∧
  VerifyFlash.locked_view ∉ w_files (VerifyFlash.run stuck).2.
Proof.
  assert (H : failed (ExpectVisible 0 journal_tab 5000) (VerifyFlash.run stuck).2).
  { exists (AssertionError "Locator expected to be visible").
    vm_compute. is_elem. }
  split; [exact H|].
  destruct (second_scenario_not_run stuck H) as (H1 & _ & _ & _ & _ & H6).
  split; assumption.
Defined.

(** ** The locked scenario of verify_flash.py *)

(** What the two assertions of the locked scenario saw when they passed. *)
Ltac assertions_passed :=
  repeat match goal with
  | H : await judge_visible _ _ = Passed _ |- _ =>
      apply await_passed in H as [? H]; apply judge_visible_pass in H
  | H : await judge_not_visible _ _ = Passed _ |- _ =>
      apply await_passed in H as [? H];
      apply judge_not_visible_pass in H as [_ H]
  end.

(** C1.  When the locked scenario succeeds, so that [locked_view.png] is
    written, the runner has made a context of its own, registered on it the
    init script that sets [dreamJournalPinHash] to the quoted literal
    ["somehash"], opened a page in that context and navigated, in this
    order; the document's own scripts started with that key in
    localStorage; the lock tab was one visible element within 5000
    milliseconds, and the journal tab was seen not visible. *)
Theorem locked_scenario (env : environment) :
  let w := (VerifyFlash.run env).2 in
  let seeded : gmap string string := {[ pin_key := pin_value ]} in
  VerifyFlash.locked_view ∈ w_files w →
  (* the calls, in the order of the script *)
  w_log w !! 7 = Some (Event NewContext None) ∧
  w_log w !! 8 = Some (Event (AddInitScript 1 VerifyFlash.seed_script) None) ∧
  w_log w !! 9 = Some (Event (ContextNewPage 1) None) ∧
  w_log w !! 10 = Some (Event (Goto 1 (target_url env)) None) ∧
  w_log w !! 11 = Some (Event (ExpectVisible 1 lock_tab 5000) None) ∧
  w_log w !! 12 = Some (Event (ExpectNotVisible 1 journal_tab 5000) None) ∧
  w_log w !! 13 = Some (Event (PageScreenshot 1 VerifyFlash.locked_view) None) ∧
  (* what the init script does *)
  js_set_item VerifyFlash.seed_script = Some (pin_key, pin_value) ∧
  (* the context holds this script and this key, and nothing else *)
  (∃ cx, w_contexts w !! 1 = Some cx ∧ ctx_single cx = false ∧
         ctx_init cx = [VerifyFlash.seed_script] ∧ ctx_storage cx = seeded) ∧
  (* the page is in that context; its scripts started with the key set *)
  (∃ pg, w_pages w !! 1 = Some pg ∧ pg_ctx pg = 1 ∧
         pg_document pg = Some seeded) ∧
  (* what the assertions saw *)
  (∃ t, (t ≤ 5000)%N ∧ visible (dom env seeded 11 lock_tab t)) ∧
  (∃ t, (t ≤ 5000)%N ∧ ¬ visible (dom env seeded 12 journal_tab t)).
Proof.
  cbn zeta. run_flash env r w E. explore E 0.
  all: intros Hin; elems.
  all: rewrite ?eval_seed_script, ?insert_empty in *; assertions_passed.
  all: unfold close_context, close_page; cbn; conjuncts;
    first [ reflexivity
          | solve [eexists; split; [ | eassumption]; assumption]
          | solve [eexists; split; [reflexivity | cbn; auto]] ].
Qed.

(** The theorem at the application that behaves. *)
Lemma locked_scenario_witness :
  VerifyFlash.locked_view ∈ w_files (VerifyFlash.run well_behaved).2 ∧
  ∃ t, (t ≤ 5000)%N ∧
       visible (dom well_behaved {[ pin_key := pin_value ]} 11 lock_tab t).
Proof.
  assert (H : VerifyFlash.locked_view ∈ w_files (VerifyFlash.run well_behaved).2).
  { vm_compute. is_elem. }
  split; [exact H|].
  destruct (locked_scenario well_behaved H)
    as (_ & _ & _ & _ & _ & _ & _ & _ & _ & _ & Hlock & _).
  exact Hlock.
Defined.

(** ** The unlocked scenario of verify_flash.py *)

(** With an application that shows the lock tab together with the journal
    tab while no PIN is configured, the unlocked scenario succeeds, and so
    does the whole script. *)
Lemma unlocked_scenario_passes_with_lock_tab_showing :
  (VerifyFlash.run flashing).1 = Ok tt ∧
  VerifyFlash.unlocked_view ∈ w_files (VerifyFlash.run flashing).2 ∧
  (∀ k t, visible (dom flashing ∅ k lock_tab t)).
Proof.
  split; [vm_compute; reflexivity|].
  split; [vm_compute; is_elem|].
  intros k t. split; reflexivity.
Qed.

(** C7, as the script has it.  When the unlocked scenario succeeds, so that
    [unlocked_view.png] is written, the page was opened in a context of its
    own with no init script and an empty storage, its document started with
    an empty localStorage, and the journal tab was one visible element
    within 5000 milliseconds.  The scenario makes no assertion on the lock
    tab. *)
Theorem unlocked_scenario (env : environment) :
  let w := (VerifyFlash.run env).2 in
  VerifyFlash.unlocked_view ∈ w_files w →
  w_log w !! 2 = Some (Event NewPage None) ∧
  w_log w !! 3 = Some (Event (Goto 0 (target_url env)) None) ∧
  w_log w !! 4 = Some (Event (ExpectVisible 0 journal_tab 5000) None) ∧
  w_log w !! 5 = Some (Event (PageScreenshot 0 VerifyFlash.unlocked_view) None) ∧
  (∃ cx, w_contexts w !! 0 = Some cx ∧ ctx_single cx = true ∧
         ctx_init cx = [] ∧ ctx_storage cx = ∅) ∧
  (∃ pg, w_pages w !! 0 = Some pg ∧ pg_ctx pg = 0 ∧ pg_document pg = Some ∅) ∧
  (∃ t, (t ≤ 5000)%N ∧ visible (dom env ∅ 4 journal_tab t)) ∧
  (∀ timeout, ¬ issued (ExpectVisible 0 lock_tab timeout) w
              ∧ ¬ issued (ExpectNotVisible 0 lock_tab timeout) w).
Proof.
  cbn zeta. run_flash env r w E. explore E 0.
  all: intros Hin; elems.
  all: rewrite ?eval_seed_script, ?insert_empty in *; assertions_passed.
  all: unfold close_context, close_page, issued; cbn; conjuncts;
    first [ reflexivity
          | solve [eexists; split; [ | eassumption]; assumption]
          | solve [eexists; split; [reflexivity | cbn; auto]]
          | solve [intros timeout; split; intros [e H']; elems] ].
Qed.

(** The theorem at the application that behaves. *)
Lemma unlocked_scenario_witness :
  VerifyFlash.unlocked_view ∈ w_files (VerifyFlash.run well_behaved).2 ∧
  ∃ t, (t ≤ 5000)%N ∧ visible (dom well_behaved ∅ 4 journal_tab t).
Proof.
  assert (H : VerifyFlash.unlocked_view ∈ w_files (VerifyFlash.run well_behaved).2).
  { vm_compute. is_elem. }
  split; [exact H|].
  destruct (unlocked_scenario well_behaved H) as (_ & _ & _ & _ & _ & _ & Hj & _).
  exact Hj.
Defined.

(** ** The seeded storage stays in its own context *)

(** C9.  The init script is registered on one context only, the one that
    [browser.new_context()] made for the locked scenario; no other page
    lives in that context, no other context has an init script or holds the
    key, and no other page's document started with the key. *)
Theorem seeding_is_isolated (env : environment) :
  let w := (VerifyFlash.run env).2 in
  (∀ c script, issued (AddInitScript c script) w →
     c = 1 ∧ script = VerifyFlash.seed_script ∧
     w_log w !! 7 = Some (Event NewContext None)) ∧
  (∀ c cx, w_contexts w !! c = Some cx → c ≠ 1 →
     ctx_init cx = [] ∧ ctx_storage cx !! pin_key = None) ∧
  (∀ p pg, w_pages w !! p = Some pg → p ≠ 1 →
     pg_ctx pg ≠ 1 ∧
     ∀ storage, pg_document pg = Some storage → storage !! pin_key = None) ∧
  (∀ pg, w_pages w !! 1 = Some pg → pg_ctx pg = 1).
Proof.
  cbn zeta. run_flash env r w E. explore E 0.
  all: unfold close_context, close_page, issued; cbn; conjuncts;
    [ intros c script [e H]; elems; auto
    | intros [|[|c]] cx H Hc; cbn in H; inversion H; subst;
        first [congruence | cbn; split; [reflexivity | apply lookup_empty]]
    | intros [|[|p]] pg H Hp; cbn in H; inversion H; subst;
        first [ congruence
              | cbn; split; [lia |];
                intros storage Hs; inversion Hs; subst; apply lookup_empty ]
    | intros pg H; cbn in H; inversion H; subst; reflexivity ].
Qed.

(** ** Console output *)





(** ** The inline editor scenario of verify_spacing.py *)

(** C2.  The entry assertion is made after the title and the content have
    been filled with the two literal strings and the Save Dream button has
    been clicked; it passes only when the locator for an [.entry] element
    with the title text resolves to exactly one element and that element is
    visible; the steps after it are made only when it has passed. *)
Theorem entry_assertion (env : environment) :
  let w := (VerifySpacing.run env).2 in
  (∀ e, Event (ExpectVisible 0 entry_element 5000) e ∈ w_log w →
     w_log w !! 4
       = Some (Event (Fill 0 (Css "#dreamTitle" None)
                        "A Test Dream About Spacing") None) ∧
     w_log w !! 5
       = Some (Event (Fill 0 (Css "#dreamContent" None)
                        "This is the content of the test dream.") None) ∧
     w_log w !! 6 = Some (Event (Click 0 (Role "button" "Save Dream")) None) ∧
     w_log w !! 7 = Some (Event (ExpectVisible 0 entry_element 5000) e)) ∧
  (passed (ExpectVisible 0 entry_element 5000) w →
     ∃ t, (t ≤ 5000)%N ∧
          matched (dom env ∅ 7 entry_element t) = 1 ∧
          shown (dom env ∅ 7 entry_element t) = true) ∧
  (∀ c, c ∈ steps_after_entry → issued c w →
     passed (ExpectVisible 0 entry_element 5000) w).
Proof.
  cbn zeta. run_spacing env r w E. explore E 0.
  all: assertions_passed.
  all: unfold passed, issued; cbn; conjuncts;
    [ intros e Hx; elems; cbn; conjuncts; reflexivity
    | intros Hx; elems; solve [eexists; split; [ | eassumption]; assumption]
    | intros c Hc [e Hx]; unfold steps_after_entry in Hc; elems; is_elem ].
Qed.

(** C3.  The Edit button is the one inside the entry element, and it is
    activated by dispatching a [click] event on it, after the entry
    assertion has passed: the only pointer click of the run is the one on
    Save Dream.  The scenario succeeds, so that [verification.png] is
    written, only when the textarea inside the same entry element was one
    visible element within 10000 milliseconds. *)
Theorem edit_mode (env : environment) :
  let w := (VerifySpacing.run env).2 in
  (∀ e, Event (DispatchEvent 0 edit_button "click") e ∈ w_log w →
     w_log w !! 7 = Some (Event (ExpectVisible 0 entry_element 5000) None) ∧
     w_log w !! 8 = Some (Event (DispatchEvent 0 edit_button "click") e)) ∧
  (∀ p loc, issued (Click p loc) w → loc = Role "button" "Save Dream") ∧
  (∀ p loc type, issued (DispatchEvent p loc type) w →
     p = 0 ∧ loc = Inside entry_element (Role "button" "Edit") ∧ type = "click") ∧
  (VerifySpacing.verification ∈ w_files w →
     w_log w !! 8 = Some (Event (DispatchEvent 0 edit_button "click") None) ∧
     w_log w !! 9 = Some (Event (ExpectVisible 0 entry_textarea 10000) None) ∧
     w_log w !! 10
       = Some (Event (LocatorScreenshot 0 entry_element
                        VerifySpacing.verification) None) ∧
     ∃ t, (t ≤ 10000)%N ∧
          visible (dom env ∅ 9 (Inside entry_element (Css "textarea" None)) t)).
Proof.
  cbn zeta. run_spacing env r w E. explore E 0.
  all: assertions_passed.
  all: unfold issued; cbn; conjuncts;
    [ intros e Hx; elems; cbn; conjuncts; reflexivity
    | intros p loc [e Hx]; elems; reflexivity
    | intros p loc type [e Hx]; elems; conjuncts; reflexivity
    | intros Hx; elems; conjuncts;
        first [ reflexivity
              | solve [eexists; split; [ | eassumption]; assumption] ] ].
Qed.

(** The theorem at the application that behaves. *)
Lemma edit_mode_witness :
  VerifySpacing.verification ∈ w_files (VerifySpacing.run well_behaved).2 ∧
  ∃ t, (t ≤ 10000)%N ∧
       visible (dom well_behaved ∅ 9
                  (Inside entry_element (Css "textarea" None)) t).
Proof.
  assert (H : VerifySpacing.verification
                ∈ w_files (VerifySpacing.run well_behaved).2).
  { vm_compute. is_elem. }
  split; [exact H|].
  destruct (edit_mode well_behaved) as (_ & _ & _ & Hshot).
  destruct (Hshot H) as (_ & _ & _ & Ht).
  exact Ht.
Defined.

(** The entry assertion at the application that behaves. *)
Lemma entry_assertion_witness :
  passed (ExpectVisible 0 entry_element 5000) (VerifySpacing.run well_behaved).2 ∧
  ∃ t, (t ≤ 5000)%N ∧
       matched (dom well_behaved ∅ 7 entry_element t) = 1 ∧
       shown (dom well_behaved ∅ 7 entry_element t) = true.
Proof.
  assert (H : passed (ExpectVisible 0 entry_element 5000)
                (VerifySpacing.run well_behaved).2).
  { unfold passed. vm_compute. is_elem. }
  split; [exact H|].
  destruct (entry_assertion well_behaved) as (_ & Hone & _).
  exact (Hone H).
Defined.

(** * Further properties of the two scripts *)

(** ** Straight-line control flow *)

Lemma stops_at_failure_spec (log : list event) :
  stops_at_failure log = true →
  ∀ i j c e ev,
    log !! i = Some (Event c (Some e)) →
    i < j → log !! j = Some ev → teardown (ev_call ev) = true.
Proof.
  induction log as [|x rest IH]; intros H i j c e ev Hi Hij Hj.
  - rewrite lookup_nil in Hi. discriminate.
  - cbn in H. apply andb_prop in H as [Hx Hrest].
    destruct i as [|i].
    + cbn in Hi. inversion Hi; subst x. cbn in Hx.
      destruct j as [|j]; [lia|]. cbn in Hj.
      rewrite forallb_forall in Hx. apply Hx.
      apply list_elem_of_In. eapply list_elem_of_lookup_2. exact Hj.
    + destruct j as [|j]; [lia|]. cbn in Hi, Hj.
      apply (IH Hrest i j c e ev Hi); [lia | exact Hj].
Qed.

(** X1.  Whatever call raises, a navigation, an action or a screenshot as
    much as an assertion, no step of either script follows it: the calls
    after it are [browser.close()] and the exit of the manager.  At most
    one call raises in a run of verify_flash.py, and at most two in a run
    of verify_spacing.py, the second being [browser.close()]. *)
Theorem every_failure_ends_the_steps (env : environment) :
  (∀ w, w = (VerifyFlash.run env).2 ∨ w = (VerifySpacing.run env).2 →
     ∀ i j c e ev,
       w_log w !! i = Some (Event c (Some e)) →
       i < j → w_log w !! j = Some ev → teardown (ev_call ev) = true) ∧
  (failures (w_log (VerifyFlash.run env).2) ≤ 1)%nat ∧
  (failures (w_log (VerifySpacing.run env).2) ≤ 2)%nat ∧
  (failures (w_log (VerifySpacing.run env).2) = 2 →
     failed BrowserClose (VerifySpacing.run env).2).
Proof.
  assert (Hf : stops_at_failure (w_log (VerifyFlash.run env).2) = true
               ∧ (failures (w_log (VerifyFlash.run env).2) ≤ 1)%nat).
  { run_flash env r w E. explore E 0. all: split; [reflexivity | cbn; lia]. }
  assert (Hs : stops_at_failure (w_log (VerifySpacing.run env).2) = true
               ∧ (failures (w_log (VerifySpacing.run env).2) ≤ 2)%nat
               ∧ (failures (w_log (VerifySpacing.run env).2) = 2 →
                  failed BrowserClose (VerifySpacing.run env).2)).
  { run_spacing env r w E. explore E 0.
    all: split; [reflexivity | split; [cbn; lia |]].
    all: unfold failed; cbn; intros Hx;
      first [discriminate Hx | eexists; is_elem]. }
  destruct Hf as [Hf1 Hf2]. destruct Hs as (Hs1 & Hs2 & Hs3).
  conjuncts; try assumption.
  intros w [-> | ->]; apply stops_at_failure_spec; assumption.
Qed.

(** X2.  The screenshots are written in the order of the script and each at
    most once: verify_flash.py leaves no file, or [unlocked_view.png], or
    [unlocked_view.png] and then [locked_view.png]; verify_spacing.py leaves
    no file or [verification.png].  Neither script writes another file. *)
Theorem files_written (env : environment) :
  (w_files (VerifyFlash.run env).2 = []
   ∨ w_files (VerifyFlash.run env).2 = [VerifyFlash.unlocked_view]
   ∨ w_files (VerifyFlash.run env).2
     = [VerifyFlash.unlocked_view; VerifyFlash.locked_view]) ∧
  (w_files (VerifySpacing.run env).2 = []
   ∨ w_files (VerifySpacing.run env).2 = [VerifySpacing.verification]).
Proof.
  split.
  - run_flash env r w E. explore E 0. all: auto.
  - run_spacing env r w E. explore E 0. all: auto.
Qed.

(** The first [n] calls of a plan, for some [n] between [lo] and [hi]. *)
Ltac prefix_of_plan lo hi :=
  lazymatch lo with
  | hi => exists lo; split; [lia | reflexivity]
  | _ => first [ exists lo; split; [lia | reflexivity]
               | prefix_of_plan (S lo) hi ]
  end.

(** X3.  The environment decides where a run stops, not what it does: in
    every run the calls issued are the first calls of the script's fixed
    sequence, with the same arguments, followed by the release of the
    session.  For verify_flash.py that is the exit of the manager.  For
    verify_spacing.py it is [browser.close()] and the exit of the manager
    once the page is open; when the launch or [browser.new_page()] raises,
    which the [try] statement does not cover, [browser.close()] is not
    called and only the manager's exit follows. *)
Theorem calls_follow_the_script (env : environment) :
  (ev_call <$> w_log (VerifyFlash.run env).2 = [Start]
   ∨ ∃ n, (2 ≤ n ≤ 15)%nat ∧
          ev_call <$> w_log (VerifyFlash.run env).2
          = (take n (flash_plan env) ++ [Stop])%list) ∧
  (ev_call <$> w_log (VerifySpacing.run env).2 = [Start]
   ∨ (failed (Launch true) (VerifySpacing.run env).2 ∧
      ev_call <$> w_log (VerifySpacing.run env).2 = [Start; Launch true; Stop])
   ∨ (failed NewPage (VerifySpacing.run env).2 ∧
      ev_call <$> w_log (VerifySpacing.run env).2
      = [Start; Launch true; NewPage; Stop])
   ∨ (passed NewPage (VerifySpacing.run env).2 ∧
      ∃ n, (3 ≤ n ≤ 11)%nat ∧
           ev_call <$> w_log (VerifySpacing.run env).2
           = (take n (spacing_plan env) ++ [BrowserClose; Stop])%list)).
Proof.
  split.
  - run_flash env r w E. explore E 0.
    all: first [ left; reflexivity | right; prefix_of_plan 2 15 ].
  - run_spacing env r w E. explore E 0.
    all: unfold failed, passed; cbn; first
      [ left; reflexivity
      | right; left; split; [eexists; is_elem | reflexivity]
      | right; right; left; split; [eexists; is_elem | reflexivity]
      | right; right; right; split; [is_elem | prefix_of_plan 3 11] ].
Qed.

(** ** What verify_spacing.py prints *)




(** ** Which exception ends a script *)

(** X5.  verify_flash.py ends with an exception exactly when a call raised,
    and the exception is that of the call, unchanged.  verify_spacing.py
    ends with an exception exactly when a call outside its [try] statement
    raised; an exception of [browser.close()] in the [finally] block is the
    one that ends the script, also when a step had raised before it and had
    been reported. *)
Theorem exception_that_ends_the_script (env : environment) (e : exn) :
  ((VerifyFlash.run env).1 = Raise e
     ↔ ∃ c, Event c (Some e) ∈ w_log (VerifyFlash.run env).2) ∧
  ((VerifySpacing.run env).1 = Raise e
     ↔ ∃ c, unguarded c = true ∧
            Event c (Some e) ∈ w_log (VerifySpacing.run env).2).
Proof.
  split.
  - run_flash env r w E. explore E 0.
    all: split;
      [ intros Hx; first [ discriminate Hx
                         | inversion Hx; subst; eexists; is_elem ]
      | intros [c Hx]; elems; reflexivity ].
  - run_spacing env r w E. explore E 0.
    all: split;
      [ intros Hx;
        first [ discriminate Hx
              | inversion Hx; subst;
                first [ exists Start; split; [reflexivity | solve [is_elem]]
                      | exists (Launch true); split; [reflexivity | solve [is_elem]]
                      | exists NewPage; split; [reflexivity | solve [is_elem]]
                      | exists BrowserClose; split; [reflexivity | solve [is_elem]] ] ]
      | intros (c & Hc & Hx); elems; first [discriminate Hc | reflexivity] ].
Qed.

(** ** The page of verify_spacing.py *)

(** X6.  verify_spacing.py works on one page in one context, the pair made
    by [browser.new_page()]: it registers no init script and seeds no
    storage, so the document it loads starts with an empty localStorage;
    the console listener is on the page from the moment the page exists,
    before the navigation. *)
Theorem spacing_page (env : environment) :
  let w := (VerifySpacing.run env).2 in
  (length (w_contexts w) ≤ 1)%nat ∧ (length (w_pages w) ≤ 1)%nat ∧
  (∀ cx, cx ∈ w_contexts w →
     ctx_single cx = true ∧ ctx_init cx = [] ∧ ctx_storage cx = ∅) ∧
  (∀ pg, pg ∈ w_pages w →
     pg_ctx pg = 0 ∧
     pg_listeners pg = [VerifySpacing.console_listener] ∧
     (pg_document pg = None ∨ pg_document pg = Some ∅) ∧
     (passed (Goto 0 (target_url env)) w → pg_document pg = Some ∅)) ∧
  (∀ p m, (p, m) ∈ w_emitted w → p = 0 ∧ issued (Goto 0 (target_url env)) w).
Proof.
  cbn zeta. run_spacing env r w E. explore E 0.
  all: unfold close_context, close_page, passed, issued; cbn; conjuncts;
    [ lia | lia
    | intros cx Hx; elems; cbn; conjuncts; reflexivity
    | intros pg Hx; elems; cbn; conjuncts;
        first [ reflexivity | right; reflexivity | left; reflexivity
              | intros Hg; elems; reflexivity | intros Hg; reflexivity ]
    | intros p m Hx; try (elems; fail);
        rewrite ?elem_of_app in Hx;
        repeat match goal with H : _ ∨ _ |- _ => destruct H as [H|H] end;
        apply list_elem_of_fmap in Hx as (x & Heq & _); inversion Heq; subst;
        (split; [reflexivity | eexists; is_elem]) ].
Qed.

(** ** No call is made twice *)

Ltac distinct_calls :=
  cbn;
  repeat (apply NoDup_cons; split; [intros Hx; elems | ]);
  apply NoDup_nil; exact I.

(** X7.  Neither script retries: in every run every call, with its page
    and its arguments, is made at most once. *)
Theorem no_call_is_repeated (env : environment) :
  NoDup (ev_call <$> w_log (VerifyFlash.run env).2) ∧
  NoDup (ev_call <$> w_log (VerifySpacing.run env).2).
Proof.
  split.
  - run_flash env r w E. explore E 0. all: distinct_calls.
  - run_spacing env r w E. explore E 0. all: distinct_calls.
Qed.

(** ** What a zero exit tells *)

(** X8.  When verify_flash.py exits with status zero, both screenshots have
    been written and every one of its fifteen calls has completed; once
    [locked_view.png] is written, only [browser.close()] can still make the
    script fail.  For verify_spacing.py the written screenshot, not the
    exit status, is what tells that every step completed. *)
Theorem zero_exit_and_screenshots (env : environment) :
  (exit_status (VerifyFlash.run env).1 = 0%Z →
     w_files (VerifyFlash.run env).2
       = [VerifyFlash.unlocked_view; VerifyFlash.locked_view] ∧
     ev_call <$> w_log (VerifyFlash.run env).2
       = (flash_plan env ++ [Stop])%list) ∧
  (VerifyFlash.locked_view ∈ w_files (VerifyFlash.run env).2 →
     exit_status (VerifyFlash.run env).1 = 0%Z
     ∨ failed BrowserClose (VerifyFlash.run env).2) ∧
  (VerifySpacing.verification ∈ w_files (VerifySpacing.run env).2 →
     ∀ c, c ∈ spacing_plan env → passed c (VerifySpacing.run env).2).
Proof.
  conjuncts.
  - run_flash env r w E. explore E 0.
    all: intros Hx; first [discriminate Hx | split; reflexivity].
  - run_flash env r w E. explore E 0.
    all: unfold failed; cbn; intros Hx; elems;
      first [left; reflexivity | right; eexists; is_elem].
  - run_spacing env r w E. explore E 0.
    all: unfold passed, spacing_plan; cbn; intros Hx; elems;
      intros c Hc; elems; is_elem.
Qed.
